(** * Go-Back-N host (GBNHost.py): a shallow embedding and its properties

    The Python class [GBNHost] is modelled as a record of its fields plus
    three entry points, each returning the new state together with the list
    of calls it made on the simulator ([to_layer3], [to_layer5],
    [start_timer], [stop_timer]).  A Python exception (a [struct.error] from
    [pack]/[unpack], a [UnicodeDecodeError], an [UnboundLocalError]) is
    modelled as [None]; every exception the code can raise happens before it
    mutates [self] or calls the simulator, so [None] loses nothing.

    Bytes are integers in [0, 255]; Python [int]s are [Z]; a Python [str]
    is the list of its code points. *)

From stdpp Require Import base gmap list.
From Stdlib Require Import ZArith Lia.

Open Scope Z_scope.

Abbreviation bytes := (list Z).

(** ** [struct] helpers: network byte order ('!') *)

(** Big-endian [n]-byte encoding of a non-negative [x] (mod 256^n). *)
Fixpoint be_bytes (n : nat) (x : Z) : bytes :=
  match n with
  | O => []
  | S k => be_bytes k (Z.shiftr x 8) ++ [Z.land x 255]
  end.

(** Big-endian value of a byte string. *)
Definition be_value (bs : bytes) : Z :=
  fold_left (fun acc b => acc * 256 + b) bs 0.

(** [pack('!i', x)]: signed 32-bit, [struct.error] out of range. *)
Definition pack_i (x : Z) : option bytes :=
  if (- 2 ^ 31 <=? x) && (x <? 2 ^ 31)
  then Some (be_bytes 4 (x mod 2 ^ 32)) else None.

(** [pack('!H', x)]: unsigned 16-bit. *)
Definition pack_H (x : Z) : option bytes :=
  if (0 <=? x) && (x <? 2 ^ 16) then Some (be_bytes 2 x) else None.

(** [pack('!?', b)]. *)
Definition pack_bool (b : bool) : bytes := [if b then 1 else 0].

(** [pack('!%is' % n, s)]: truncate or pad with zero bytes to [n]. *)
Definition pack_s (n : nat) (s : bytes) : bytes :=
  take n s ++ replicate (n - length s) 0.

(** [unpack('!i', bs)]: exactly 4 bytes, two's complement. *)
Definition unpack_i (bs : bytes) : option Z :=
  if Nat.eqb (length bs) 4 then
    let u := be_value bs in Some (if 2 ^ 31 <=? u then u - 2 ^ 32 else u)
  else None.

(** [unpack('!H', bs)]: exactly 2 bytes. *)
Definition unpack_H (bs : bytes) : option Z :=
  if Nat.eqb (length bs) 2 then Some (be_value bs) else None.

(** [unpack('!?', bs)]: exactly 1 byte, true iff non-zero. *)
Definition unpack_bool (bs : bytes) : option bool :=
  match bs with
  | [b] => Some (negb (b =? 0))
  | _ => None
  end.

(** [unpack('!%is' % n, bs)]: a negative [n] makes the format invalid
    ('bad char in struct format'); otherwise exactly [n] bytes. *)
Definition unpack_s (n : Z) (bs : bytes) : option bytes :=
  if (0 <=? n) && (Z.of_nat (length bs) =? n) then Some bs else None.

(** Python slice [bs[a:b]] with non-negative bounds. *)
Definition slice (a b : nat) (bs : bytes) : bytes := take (b - a) (drop a bs).

(** ** UTF-8 ([str.encode()] and [bytes.decode('utf-8')], strict) *)

Definition cont (b : Z) : bool := (0x80 <=? b) && (b <=? 0xBF).

Definition utf8_encode_cp (c : Z) : option bytes :=
  if c <? 0 then None
  else if c <? 0x80 then Some [c]
  else if c <? 0x800 then
    Some [Z.lor 0xC0 (Z.shiftr c 6); Z.lor 0x80 (Z.land c 0x3F)]
  else if c <? 0x10000 then
    if (0xD800 <=? c) && (c <=? 0xDFFF) then None (* surrogates not allowed *)
    else Some [Z.lor 0xE0 (Z.shiftr c 12);
               Z.lor 0x80 (Z.land (Z.shiftr c 6) 0x3F);
               Z.lor 0x80 (Z.land c 0x3F)]
  else if c <? 0x110000 then
    Some [Z.lor 0xF0 (Z.shiftr c 18);
          Z.lor 0x80 (Z.land (Z.shiftr c 12) 0x3F);
          Z.lor 0x80 (Z.land (Z.shiftr c 6) 0x3F);
          Z.lor 0x80 (Z.land c 0x3F)]
  else None.

Fixpoint utf8_encode (s : list Z) : option bytes :=
  match s with
  | [] => Some []
  | c :: rest => e ← utf8_encode_cp c; r ← utf8_encode rest; Some (e ++ r)
  end.

Definition cp2 (b0 b1 : Z) : Z := Z.lor (Z.shiftl (Z.land b0 0x1F) 6) (Z.land b1 0x3F).
Definition cp3 (b0 b1 b2 : Z) : Z :=
  Z.lor (Z.shiftl (Z.land b0 0x0F) 12)
        (Z.lor (Z.shiftl (Z.land b1 0x3F) 6) (Z.land b2 0x3F)).
Definition cp4 (b0 b1 b2 b3 : Z) : Z :=
  Z.lor (Z.shiftl (Z.land b0 0x07) 18)
        (Z.lor (Z.shiftl (Z.land b1 0x3F) 12)
               (Z.lor (Z.shiftl (Z.land b2 0x3F) 6) (Z.land b3 0x3F))).

(** The well-formed UTF-8 byte sequences of Unicode (Table 3-7), which is
    what CPython's strict decoder accepts. *)
Fixpoint utf8_decode (bs : bytes) : option (list Z) :=
  match bs with
  | [] => Some []
  | b0 :: r0 =>
    if b0 <=? 0x7F then (rest ← utf8_decode r0; Some (b0 :: rest))
    else if (0xC2 <=? b0) && (b0 <=? 0xDF) then
      match r0 with
      | b1 :: r1 =>
        if cont b1 then (rest ← utf8_decode r1; Some (cp2 b0 b1 :: rest))
        else None
      | _ => None
      end
    else if (0xE0 <=? b0) && (b0 <=? 0xEF) then
      match r0 with
      | b1 :: b2 :: r2 =>
        let lo := if b0 =? 0xE0 then 0xA0 else 0x80 in
        let hi := if b0 =? 0xED then 0x9F else 0xBF in
        if (lo <=? b1) && (b1 <=? hi) && cont b2
        then (rest ← utf8_decode r2; Some (cp3 b0 b1 b2 :: rest))
        else None
      | _ => None
      end
    else if (0xF0 <=? b0) && (b0 <=? 0xF4) then
      match r0 with
      | b1 :: b2 :: b3 :: r3 =>
        let lo := if b0 =? 0xF0 then 0x90 else 0x80 in
        let hi := if b0 =? 0xF4 then 0x8F else 0xBF in
        if (lo <=? b1) && (b1 <=? hi) && cont b2 && cont b3
        then (rest ← utf8_decode r3; Some (cp4 b0 b1 b2 b3 :: rest))
        else None
      | _ => None
      end
    else None
  end.

(** ** [compute_checksum] (GBNHost.py lines 99-113)

    [carry] accumulates the plain sum of the words; each iteration folds it
    once into [res] and complements; the last iteration's [checksum] is
    returned.  On an empty packet the loop never runs and [return checksum]
    raises [UnboundLocalError]: [None]. *)
Fixpoint checksum_loop (carry : Z) (pkt : bytes) (checksum : option Z)
  : option Z :=
  match pkt with
  | b0 :: b1 :: rest =>
    let word := Z.lor (Z.shiftl b0 8) b1 in
    let carry' := carry + word in
    let res := Z.land carry' 0xffff + Z.shiftr carry' 16 in
    checksum_loop carry' rest (Some (Z.land (Z.lnot res) 0xffff))
  | _ => checksum
  end.

Definition compute_checksum (packet : bytes) : option Z :=
  let pkt := if Nat.even (length packet) then packet else packet ++ [0] in
  checksum_loop 0 pkt None.

(** ** The host *)

(** The calls the host makes on the simulator ([self.entity] is constant
    and left out).  [to_layer3] carries the Python value handed over:
    [None] when the code passes [self.last_ACK_pkt] while it is still
    Python's [None]. *)
Inductive event :=
  | to_layer3 (pkt : option bytes) (is_ack : bool)
  | to_layer5 (payload : list Z)
  | start_timer (interval : Z)
  | stop_timer.

Record GBNHost := mkHost {
  timer_interval : Z;
  window_size : Z;
  last_ACKed : Z;
  current_seq_number : Z;
  app_layer_buffer : list (list Z);
  unACKed_buffer : gmap Z bytes;
  expected_seq_number : Z;
  last_ACK_pkt : option bytes
}.

(** [__init__] (lines 69-91). *)
Definition init (timer_interval window_size : Z) : GBNHost := {|
  timer_interval := timer_interval;
  window_size := window_size;
  last_ACKed := 0;
  current_seq_number := 1;
  app_layer_buffer := [];
  unACKed_buffer := ∅;
  expected_seq_number := 1;
  last_ACK_pkt := None
|}.

(** [pack('!iiH?i%is' % n, seq, ack, checksum, is_ack, length, payload)];
    with [n = 0] and an empty payload this is also [pack('!iiH?i', ...)]. *)
Definition pack_pkt (seq ack checksum : Z) (is_ack : bool) (len : Z)
    (n : nat) (payload : bytes) : option bytes :=
  s ← pack_i seq; a ← pack_i ack; c ← pack_H checksum; l ← pack_i len;
  Some (s ++ a ++ c ++ pack_bool is_ack ++ l ++ pack_s n payload).

(** [create_data_pkt] (lines 93-97): [len(payload)] counts code points,
    [payload.encode()] gives the UTF-8 bytes. *)
Definition create_data_pkt (self : GBNHost) (seq_num : Z) (payload : list Z)
  : option bytes :=
  enc ← utf8_encode payload;
  let n := length payload in
  pkt ← pack_pkt seq_num (last_ACKed self) 0 false (Z.of_nat n) n enc;
  checksum ← compute_checksum pkt;
  pack_pkt seq_num (last_ACKed self) checksum false (Z.of_nat n) n enc.

(** [receive_from_application_layer] (lines 125-148). *)
Definition receive_from_application_layer (self : GBNHost) (payload : list Z)
  : option (GBNHost * list event) :=
  if current_seq_number self <? last_ACKed self + window_size self then
    pkt ← create_data_pkt self (current_seq_number self) payload;
    let timer :=
      if current_seq_number self - last_ACKed self =? 1
      then [start_timer (timer_interval self)] else [] in
    Some ({| timer_interval := timer_interval self;
             window_size := window_size self;
             last_ACKed := last_ACKed self;
             current_seq_number := current_seq_number self + 1;
             app_layer_buffer := app_layer_buffer self;
             unACKed_buffer :=
               <[current_seq_number self := pkt]> (unACKed_buffer self);
             expected_seq_number := expected_seq_number self;
             last_ACK_pkt := last_ACK_pkt self |},
          to_layer3 (Some pkt) false :: timer)
  else
    Some ({| timer_interval := timer_interval self;
             window_size := window_size self;
             last_ACKed := last_ACKed self;
             current_seq_number := current_seq_number self;
             app_layer_buffer := app_layer_buffer self ++ [payload];
             unACKed_buffer := unACKed_buffer self;
             expected_seq_number := expected_seq_number self;
             last_ACK_pkt := last_ACK_pkt self |}, []).

(** The values lines 165-171 of [receive_from_network_layer] unpack. *)
Record packet := mkPacket {
  seq_num : Z;
  ack_num : Z;
  checksum_val : Z;
  is_ACK : bool;
  payload_length : Z;
  payload : list Z
}.

(** Lines 165-171: the unpacking, in the order the code performs it. *)
Definition unpack_packet (byte_data : bytes) : option packet :=
  seq_num ← unpack_i (slice 0 4 byte_data);
  ack_num ← unpack_i (slice 4 8 byte_data);
  checksum_val ← unpack_H (slice 8 10 byte_data);
  is_ACK ← unpack_bool (slice 10 11 byte_data);
  payload_length ← unpack_i (slice 11 15 byte_data);
  raw ← unpack_s payload_length (drop 15 byte_data);
  payload ← utf8_decode raw;
  Some (mkPacket seq_num ack_num checksum_val is_ACK payload_length payload).

(** Lines 173-202: the handling of an unpacked packet. *)
Definition handle_packet (self : GBNHost) (p : packet)
  : option (GBNHost * list event) :=
  if negb (is_ACK p) then
    if seq_num p =? expected_seq_number self then
      ack_pkt0 ← pack_pkt 0 (ack_num p) 0 true 0 0 [];
      checksum ← compute_checksum ack_pkt0;
      ack_pkt ← pack_pkt 0 (ack_num p) checksum true 0 0 [];
      Some ({| timer_interval := timer_interval self;
               window_size := window_size self;
               last_ACKed := last_ACKed self;
               current_seq_number := current_seq_number self;
               app_layer_buffer := app_layer_buffer self;
               unACKed_buffer := unACKed_buffer self;
               expected_seq_number := expected_seq_number self + 1;
               last_ACK_pkt := Some ack_pkt |},
            [to_layer5 (payload p); to_layer3 (Some ack_pkt) true])
    else Some (self, [to_layer3 (last_ACK_pkt self) true])
  else
    if last_ACKed self <? ack_num p then
      let last_ACKed' := last_ACKed self + 1 in
      let base := last_ACKed' + 1 in
      Some ({| timer_interval := timer_interval self;
               window_size := window_size self;
               last_ACKed := last_ACKed';
               current_seq_number := current_seq_number self;
               app_layer_buffer := app_layer_buffer self;
               unACKed_buffer := unACKed_buffer self;
               expected_seq_number := expected_seq_number self;
               last_ACK_pkt := last_ACK_pkt self |},
            if base =? expected_seq_number self then [stop_timer]
            else [stop_timer; start_timer (timer_interval self)])
    else Some (self, []).

(** [receive_from_network_layer] (lines 163-202). *)
Definition receive_from_network_layer (self : GBNHost) (byte_data : bytes)
  : option (GBNHost * list event) :=
  p ← unpack_packet byte_data; handle_packet self p.

(** [timer_interrupt] (lines 264-265): [pass]. *)
Definition timer_interrupt (self : GBNHost) : GBNHost * list event :=
  (self, []).

(** ** The spec's definitions, to compare the code with *)

(** The spec's checksum: sum the big-endian 16-bit words (odd length padded
    with one zero byte), fold carries with [(sum & 0xFFFF) + (sum >> 16)]
    until no carry remains, return the 16-bit one's complement.  Each fold
    of a sum above 0xFFFF shortens it by at least one bit, so [log2 sum]
    folds are enough. *)
Fixpoint words_sum (bs : bytes) : Z :=
  match bs with
  | b0 :: b1 :: rest => Z.lor (Z.shiftl b0 8) b1 + words_sum rest
  | [b0] => Z.shiftl b0 8
  | [] => 0
  end.

Fixpoint fold_carries (fuel : nat) (s : Z) : Z :=
  match fuel with
  | O => s
  | S f => if Z.shiftr s 16 =? 0 then s
           else fold_carries f (Z.land s 0xFFFF + Z.shiftr s 16)
  end.

Definition internet_checksum (bs : bytes) : Z :=
  let s := words_sum bs in
  Z.land (Z.lnot (fold_carries (S (Z.to_nat (Z.log2 s))) s)) 0xFFFF.

(** The spec's [Decode] failure: the declared payload does not fit the
    bytes available ([Truncated]), or the checksum recomputed over the
    header with a zeroed checksum field plus the payload differs from the
    transmitted one ([ChecksumMismatch]). *)
Definition decode_fails (bs : bytes) : bool :=
  match unpack_i (slice 11 15 bs) with
  | None => true
  | Some len =>
    if (len <? 0) || (Z.of_nat (length bs) - 15 <? len) then true
    else
      let pkt := take (15 + Z.to_nat len) bs in
      let zeroed := take 8 pkt ++ [0; 0] ++ drop 10 pkt in
      negb (internet_checksum zeroed =? be_value (slice 8 10 bs))
  end.

(** Runs of the entry points: [None] as soon as one raises. *)
Fixpoint submit_all (self : GBNHost) (payloads : list (list Z))
  : option (GBNHost * list event) :=
  match payloads with
  | [] => Some (self, [])
  | p :: ps =>
    '(s1, e1) ← receive_from_application_layer self p;
    '(s2, e2) ← submit_all s1 ps;
    Some (s2, e1 ++ e2)
  end.

Definition state_of (r : option (GBNHost * list event)) : option GBNHost :=
  fst <$> r.

(** The ACK packet the receiver code builds for acknowledgment [a]. *)
Definition ack_packet (a : Z) : option bytes :=
  ack_pkt0 ← pack_pkt 0 a 0 true 0 0 [];
  checksum ← compute_checksum ack_pkt0;
  pack_pkt 0 a checksum true 0 0 [].

(** Payloads "a" .. "e" as code points. *)
Definition pa : list Z := [97].
Definition pb : list Z := [98].
Definition pc : list Z := [99].
Definition pd : list Z := [100].
Definition pe : list Z := [101].
Definition px : list Z := [120].

(** Feeding bytes to a host that may not exist (an earlier call raised). *)
Definition after_network (r : option (GBNHost * list event)) (bs : bytes)
  : option (GBNHost * list event) :=
  s ← state_of r; receive_from_network_layer s bs.

(** The data packets a fresh peer sends for "a" (seq 1), and the packet
    for "b" with seq 2 whose checksum field was zeroed in transit. *)
Definition data_a : bytes := [0;0;0;1; 0;0;0;0; 254;157; 0; 0;0;0;1; 97].
Definition corrupt_b : bytes := [0;0;0;2; 0;0;0;0; 0;0; 0; 0;0;0;1; 98].
(** "a" with its length field raised to 2: the payload is truncated. *)
Definition truncated_a : bytes := [0;0;0;1; 0;0;0;0; 254;157; 0; 0;0;0;2; 97].
Definition ack0 : bytes := [0;0;0;0; 0;0;0;0; 254;255; 1; 0;0;0;0].

(** The ACK for acknowledgment number 1 as the receiver code builds it. *)
Definition ack1 : bytes := [0;0;0;0; 0;0;0;1; 254;254; 1; 0;0;0;0].

(** Number of packets handed to the network in a list of calls. *)
Definition count_sends (evs : list event) : nat :=
  length (List.filter (fun e => match e with to_layer3 _ _ => true | _ => false end) evs).

Definition events_of (r : option (GBNHost * list event)) : list event :=
  match r with Some (_, evs) => evs | None => [] end.

(** The one carry fold the code applies to its running sum ([res]). *)
Definition fold1 (s : Z) : Z := Z.land s 0xffff + Z.shiftr s 16.

(** A payload of ASCII code points. *)
Definition is_ascii (c : Z) : Prop := 0 <= c < 0x80.

(** ** Runs of a host

    One step is one call of an entry point by the simulator that returns
    normally: [receive_from_application_layer], [receive_from_network_layer]
    or [timer_interrupt].  A call that raises leaves the host as it was. *)
Inductive step : GBNHost -> list event -> GBNHost -> Prop :=
  | step_app self payload s' evs :
      receive_from_application_layer self payload = Some (s', evs) ->
      step self evs s'
  | step_net self byte_data s' evs :
      receive_from_network_layer self byte_data = Some (s', evs) ->
      step self evs s'
  | step_timer self :
      step self (snd (timer_interrupt self)) (fst (timer_interrupt self)).

Inductive steps : GBNHost -> list event -> GBNHost -> Prop :=
  | steps_refl s : steps s [] s
  | steps_cons s e1 s1 e2 s2 :
      step s e1 s1 -> steps s1 e2 s2 -> steps s (e1 ++ e2) s2.

(** The hosts a simulation reaches from [GBNHost(sim, e, ti, ws)]. *)
Definition reachable (ti ws : Z) (s : GBNHost) : Prop :=
  exists evs, steps (init ti ws) evs s.

(** Number of payloads handed to the application in a list of calls. *)
Definition count_deliveries (evs : list event) : nat :=
  length (List.filter (fun e => match e with to_layer5 _ => true | _ => false end) evs).

(** ** General lemmas about the unpacking *)

Lemma unpack_i_length (bs : bytes) (x : Z) :
  unpack_i bs = Some x -> length bs = 4%nat.
Proof.
  unfold unpack_i. destruct (Nat.eqb_spec (length bs) 4); congruence.
Qed.

Lemma length_slice_11_15 (bs : bytes) :
  length (slice 11 15 bs) = Nat.min 4 (length bs - 11).
Proof. unfold slice. rewrite length_take, length_drop. reflexivity. Qed.

(** The unpacking stops at the payload length field or at the payload. *)
Lemma unpack_packet_at_length (bs : bytes) :
  unpack_i (slice 11 15 bs) = None -> unpack_packet bs = None.
Proof.
  intros H. unfold unpack_packet.
  destruct (unpack_i (slice 0 4 bs)); [|done]; simpl.
  destruct (unpack_i (slice 4 8 bs)); [|done]; simpl.
  destruct (unpack_H (slice 8 10 bs)); [|done]; simpl.
  destruct (unpack_bool (slice 10 11 bs)); [|done]; simpl.
  by rewrite H.
Qed.

Lemma unpack_packet_at_payload (bs : bytes) (pl : Z) :
  unpack_i (slice 11 15 bs) = Some pl ->
  unpack_s pl (drop 15 bs) = None -> unpack_packet bs = None.
Proof.
  intros H1 H2. unfold unpack_packet.
  destruct (unpack_i (slice 0 4 bs)); [|done]; simpl.
  destruct (unpack_i (slice 4 8 bs)); [|done]; simpl.
  destruct (unpack_H (slice 8 10 bs)); [|done]; simpl.
  destruct (unpack_bool (slice 10 11 bs)); [|done]; simpl.
  rewrite H1; simpl. by rewrite H2.
Qed.

Lemma unpack_packet_short (bs : bytes) :
  (length bs < 15)%nat -> unpack_packet bs = None.
Proof.
  intros Hlen. apply unpack_packet_at_length.
  destruct (unpack_i (slice 11 15 bs)) as [x|] eqn:E; [|done].
  apply unpack_i_length in E. rewrite length_slice_11_15 in E. lia.
Qed.

(** ** Claims *)

(** C1 (code_bug): a corrupted inbound packet is not answered with the last
    ACK.  A receiver that has accepted "a" (seq 1) and sent its ACK gets
    the seq-2 packet for "b" with its checksum field zeroed: the spec's
    decode fails, yet the code delivers "b" to the application and sends a
    new ACK.  With the same packet for "a" but a payload length of 2
    (truncated), the code raises instead of resending the last ACK. *)
Lemma C1_corrupt_packet_delivered :
  decode_fails corrupt_b = true /\
  events_of (after_network (receive_from_network_layer (init 10 4) data_a)
                           corrupt_b)
    = [to_layer5 pb; to_layer3 (Some ack0) true] /\
  decode_fails truncated_a = true /\
  after_network (receive_from_network_layer (init 10 4) data_a) truncated_a
    = None.
Proof. vm_compute. repeat split. Qed.

(** C2 (code_bug): an ACK that makes progress does not move the window as
    the claim says.  With window 4 and "a" .. "e" submitted, the ACK for
    seq 1 leaves seq 1 in [unACKed_buffer], sends nothing from
    [app_layer_buffer] (still "d", "e") and only restarts the timer; and an
    ACK for seq 3 moves [last_ACKed] to 1 only (base 2, not 4). *)
Lemma C2_ack_does_not_drain :
  let r := submit_all (init 10 4) [pa; pb; pc; pd; pe] in
  events_of (after_network r ack1) = [stop_timer; start_timer 10] /\
  (state_of (after_network r ack1) ≫= fun s => unACKed_buffer s !! 1)
    = create_data_pkt (init 10 4) 1 pa /\
  (app_layer_buffer <$> state_of (after_network r ack1)) = Some [pd; pe] /\
  ((ack_packet 3 ≫= fun a => state_of (after_network r a)) ≫=
     fun s => Some (last_ACKed s)) = Some 1.
Proof. vm_compute. repeat split. Qed.

(** C3 (code_bug): [timer_interrupt] is [pass]: it changes nothing and
    emits nothing, in every state; after "x" has been submitted its packet
    is in [unACKed_buffer] and a timeout still retransmits nothing. *)
Lemma C3_timer_interrupt_is_noop :
  (forall self, timer_interrupt self = (self, [])) /\
  (state_of (submit_all (init 10 4) [px]) ≫= fun s => unACKed_buffer s !! 1)
    = create_data_pkt (init 10 4) 1 px /\
  ((fun s => snd (timer_interrupt s)) <$> state_of (submit_all (init 10 4) [px]))
    = Some [].
Proof. split; [reflexivity|]. vm_compute. split; reflexivity. Qed.

(** C4 (code_bug): the window test [current_seq_number < last_ACKed +
    window_size] lets only [window_size - 1] packets out of a fresh host:
    with window 4, five submissions send three packets (seq 1-3) and buffer
    "d" and "e". *)
Lemma C4_window_four_sends_three :
  let r := submit_all (init 10 4) [pa; pb; pc; pd; pe] in
  count_sends (events_of r) = 3%nat /\
  (app_layer_buffer <$> state_of r) = Some [pd; pe] /\
  (current_seq_number <$> state_of r) = Some 4.
Proof. vm_compute. repeat split. Qed.

(** C5 (code_bug): [compute_checksum] folds the running sum only once, so
    on the words FFFF FFFF 0001 (sum 0x1FFFF, one fold gives 0x10000) it
    returns 0xFFFF where the Internet checksum is 0xFFFE; on an empty input
    it raises. *)
Lemma C5_checksum_single_fold :
  compute_checksum [255; 255; 255; 255; 0; 1] = Some 0xFFFF /\
  internet_checksum [255; 255; 255; 255; 0; 1] = 0xFFFE /\
  compute_checksum [] = None /\ internet_checksum [] = 0xFFFF.
Proof. vm_compute. repeat split. Qed.

(** C6 (code_bug): the ACK for an in-order data packet carries the
    packet's own acknowledgment field, not its sequence number.  A fresh
    host receiving "a" with seq 1 (acknowledgment field 0, as a fresh peer
    sends it) delivers "a", stores and sends [ack0], whose acknowledgment
    number is 0. *)
Lemma C6_ack_number_is_ack_field :
  receive_from_network_layer (init 10 4) data_a =
    Some ({| timer_interval := 10; window_size := 4; last_ACKed := 0;
             current_seq_number := 1; app_layer_buffer := [];
             unACKed_buffer := ∅; expected_seq_number := 2;
             last_ACK_pkt := Some ack0 |},
          [to_layer5 pa; to_layer3 (Some ack0) true]) /\
  (ack_num <$> unpack_packet ack0) = Some 0.
Proof. vm_compute. split; reflexivity. Qed.

(** C7 (code_bug): the timer decision compares the new base with
    [expected_seq_number] (the receiver's counter), not with
    [current_seq_number].  After "a" alone is sent, the ACK for seq 1
    leaves nothing outstanding ([last_ACKed] 1, next sequence number 2), yet
    the code restarts the timer. *)
Lemma C7_timer_restarted_with_nothing_outstanding :
  let r := after_network (submit_all (init 10 4) [pa]) ack1 in
  events_of r = [stop_timer; start_timer 10] /\
  ((fun s => (last_ACKed s + 1, current_seq_number s)) <$> state_of r)
    = Some (2, 2).
Proof. vm_compute. split; reflexivity. Qed.

(** C8 (code_bug): [last_ACK_pkt] starts as [None], not as an ACK with
    acknowledgment number 0; a corrupted first packet makes the code hand
    [None] to [to_layer3]. *)
Lemma C8_initial_last_ack_is_none :
  (forall ti ws, last_ACK_pkt (init ti ws) = None) /\
  decode_fails corrupt_b = true /\
  receive_from_network_layer (init 10 4) corrupt_b
    = Some (init 10 4, [to_layer3 None true]).
Proof. split; [reflexivity|]. vm_compute. split; reflexivity. Qed.

(** C9: an ACK that does not go past [last_ACKed] (duplicate or stale)
    leaves the host unchanged and makes no simulator call at all. *)
Theorem C9_stale_ack_ignored (self : GBNHost) (byte_data : bytes) (p : packet) :
  unpack_packet byte_data = Some p ->
  is_ACK p = true ->
  ack_num p <= last_ACKed self ->
  receive_from_network_layer self byte_data = Some (self, []).
Proof.
  intros Hp Hack Hle. unfold receive_from_network_layer.
  rewrite Hp; simpl. unfold handle_packet. rewrite Hack; simpl.
  destruct (Z.ltb_spec (last_ACKed self) (ack_num p)); [lia | reflexivity].
Qed.

Lemma C9_stale_ack_ignored_witness :
  unpack_packet ack0 = Some (mkPacket 0 0 65279 true 0 []) /\
  receive_from_network_layer (init 10 4) ack0 = Some (init 10 4, []).
Proof.
  split; [reflexivity|].
  apply (C9_stale_ack_ignored (init 10 4) ack0 (mkPacket 0 0 65279 true 0 []));
    [reflexivity | reflexivity | simpl; lia].
Defined.

(** C10: [receive_from_network_layer] raises (an [unpack] error), before
    any state change or simulator call, on every input shorter than 15
    bytes and on every input whose payload length field (bytes 11-14)
    differs from its length minus 15. *)
Theorem C10_unpack_raises (self : GBNHost) (byte_data : bytes) :
  (length byte_data < 15)%nat \/
  (exists pl, unpack_i (slice 11 15 byte_data) = Some pl /\
              pl <> Z.of_nat (length byte_data) - 15) ->
  receive_from_network_layer self byte_data = None.
Proof.
  unfold receive_from_network_layer. intros [Hlen | (pl & Hpl & Hne)].
  - by rewrite unpack_packet_short.
  - destruct (decide (length byte_data < 15)%nat) as [Hlt|Hge].
    + by rewrite unpack_packet_short.
    + rewrite (unpack_packet_at_payload byte_data pl Hpl); [done|].
      unfold unpack_s. rewrite length_drop.
      destruct (Z.eqb_spec (Z.of_nat (length byte_data - 15)) pl); [lia|].
      by rewrite andb_false_r.
Qed.

Lemma C10_unpack_raises_witness :
  receive_from_network_layer (init 10 4) [0;0;0;0;0] = None /\
  receive_from_network_layer (init 10 4) truncated_a = None.
Proof.
  split.
  - apply C10_unpack_raises. left. simpl. lia.
  - apply C10_unpack_raises. right. exists 2. split; [reflexivity | simpl; lia].
Defined.

(** ** Byte-level round trips of the [struct] helpers *)

Definition is_byte (b : Z) : Prop := 0 <= b < 256.

Lemma be_value_snoc (l : bytes) (b : Z) :
  be_value (l ++ [b]) = be_value l * 256 + b.
Proof. unfold be_value. by rewrite fold_left_app. Qed.

Lemma length_be_bytes (n : nat) (x : Z) : length (be_bytes n x) = n.
Proof.
  revert x. induction n as [|n IH]; intros x; [done|].
  simpl. rewrite length_app, IH. simpl. lia.
Qed.

Lemma be_value_be_bytes (n : nat) (x : Z) :
  be_value (be_bytes n x) = x mod 256 ^ Z.of_nat n.
Proof.
  revert x. induction n as [|n IH]; intros x.
  - simpl. by rewrite Z.mod_1_r.
  - simpl be_bytes. rewrite be_value_snoc, IH.
    rewrite (Z.shiftr_div_pow2 x 8) by lia.
    change 255 with (Z.ones 8). rewrite Z.land_ones by lia.
    rewrite Nat2Z.inj_succ, Z.pow_succ_r by lia.
    rewrite (Z.rem_mul_r x 256 (256 ^ Z.of_nat n)) by (try lia; apply Z.pow_pos_nonneg; lia).
    change (2 ^ 8) with 256. lia.
Qed.

Lemma be_value_bound (l : bytes) :
  Forall is_byte l -> 0 <= be_value l < 256 ^ Z.of_nat (length l).
Proof.
  intros Hl. induction l as [|b l IH] using rev_ind.
  - split; [vm_compute; congruence | reflexivity].
  - apply Forall_app in Hl as [Hl Hb]. inversion Hb as [|? ? [Hb0 Hb1]]; subst.
    rewrite be_value_snoc, length_app. simpl length.
    rewrite Nat2Z.inj_add, Z.pow_add_r by lia. specialize (IH Hl). nia.
Qed.

Lemma be_bytes_bytes (n : nat) (x : Z) : Forall is_byte (be_bytes n x).
Proof.
  revert x. induction n as [|n IH]; intros x; simpl; [constructor|].
  apply Forall_app; split; [apply IH|]. constructor; [|constructor].
  change 255 with (Z.ones 8). rewrite Z.land_ones by lia.
  unfold is_byte. change (2 ^ 8) with 256. pose proof (Z.mod_pos_bound x 256). lia.
Qed.

Lemma pack_i_spec (x : Z) (bs : bytes) :
  pack_i x = Some bs ->
  length bs = 4%nat /\ unpack_i bs = Some x /\ Forall is_byte bs.
Proof.
  unfold pack_i. intros Hs.
  destruct ((- 2 ^ 31 <=? x) && (x <? 2 ^ 31)) eqn:E; [|discriminate].
  assert (bs = be_bytes 4 (x mod 2 ^ 32)) as -> by congruence.
  apply andb_true_iff in E as [E1 E2].
  apply Z.leb_le in E1. apply Z.ltb_lt in E2.
  split; [apply length_be_bytes|]. split; [|apply be_bytes_bytes].
  unfold unpack_i. rewrite length_be_bytes. simpl Nat.eqb. cbv zeta.
  rewrite be_value_be_bytes. change (256 ^ Z.of_nat 4) with (2 ^ 32).
  rewrite Z.mod_mod by lia. f_equal.
  change (2 ^ 31) with 2147483648 in *. change (2 ^ 32) with 4294967296 in *.
  pose proof (Z.div_mod x 4294967296 ltac:(lia)).
  pose proof (Z.mod_pos_bound x 4294967296 ltac:(lia)).
  destruct (Z.leb_spec 2147483648 (x mod 4294967296)); lia.
Qed.

Lemma pack_i_in_range (x : Z) :
  - 2 ^ 31 <= x < 2 ^ 31 -> is_Some (pack_i x).
Proof.
  intros [H1 H2]. unfold pack_i.
  destruct (Z.leb_spec (- 2 ^ 31) x), (Z.ltb_spec x (2 ^ 31)); try lia.
  simpl. eauto.
Qed.

Lemma unpack_i_range (bs : bytes) (x : Z) :
  Forall is_byte bs -> unpack_i bs = Some x -> - 2 ^ 31 <= x < 2 ^ 31.
Proof.
  intros Hb. unfold unpack_i.
  destruct (Nat.eqb_spec (length bs) 4) as [Hl|]; [|discriminate].
  pose proof (be_value_bound bs Hb) as Hv. rewrite Hl in Hv.
  change (256 ^ Z.of_nat 4) with 4294967296 in Hv.
  change (2 ^ 31) with 2147483648. change (2 ^ 32) with 4294967296.
  intros H; inversion H; subst; clear H.
  destruct (Z.leb_spec 2147483648 (be_value bs)); lia.
Qed.

Lemma pack_H_spec (x : Z) (bs : bytes) :
  pack_H x = Some bs -> length bs = 2%nat /\ unpack_H bs = Some x.
Proof.
  unfold pack_H. intros Hs.
  destruct ((0 <=? x) && (x <? 2 ^ 16)) eqn:E; [|discriminate].
  assert (bs = be_bytes 2 x) as -> by congruence.
  apply andb_true_iff in E as [E1 E2].
  apply Z.leb_le in E1. apply Z.ltb_lt in E2.
  split; [exact (length_be_bytes _ _)|]. unfold unpack_H.
  rewrite length_be_bytes. simpl Nat.eqb. rewrite be_value_be_bytes.
  f_equal. apply Z.mod_small. change (256 ^ Z.of_nat 2) with (2 ^ 16). lia.
Qed.

Lemma pack_H_in_range (x : Z) : 0 <= x < 2 ^ 16 -> is_Some (pack_H x).
Proof.
  intros [H1 H2]. unfold pack_H.
  destruct (Z.leb_spec 0 x), (Z.ltb_spec x (2 ^ 16)); try lia. simpl. eauto.
Qed.

Lemma length_4 (l : bytes) : length l = 4%nat -> exists a b c d, l = [a; b; c; d].
Proof. destruct l as [|a [|b [|c [|d [|]]]]]; simpl; try lia. eauto 10. Qed.

Lemma length_2 (l : bytes) : length l = 2%nat -> exists a b, l = [a; b].
Proof. destruct l as [|a [|b [|]]]; simpl; try lia. eauto. Qed.

Lemma pack_s_exact (n : nat) (pl : bytes) : length pl = n -> pack_s n pl = pl.
Proof.
  intros <-. unfold pack_s. rewrite take_ge by lia.
  replace (length pl - length pl)%nat with 0%nat by lia. apply app_nil_r.
Qed.

Lemma unpack_s_exact (pl : bytes) : unpack_s (Z.of_nat (length pl)) pl = Some pl.
Proof.
  unfold unpack_s. destruct (Z.leb_spec 0 (Z.of_nat (length pl))); [|lia].
  by rewrite Z.eqb_refl.
Qed.

(** [unpack_packet] reads its fields from the fixed-width header parts. *)
Lemma unpack_packet_split (s a c l pl : bytes) (f : Z) :
  length s = 4%nat -> length a = 4%nat -> length c = 2%nat -> length l = 4%nat ->
  unpack_packet (s ++ a ++ c ++ [f] ++ l ++ pl) =
    (seq_num ← unpack_i s; ack_num ← unpack_i a; checksum_val ← unpack_H c;
     is_ACK ← unpack_bool [f]; payload_length ← unpack_i l;
     raw ← unpack_s payload_length pl; payload ← utf8_decode raw;
     Some (mkPacket seq_num ack_num checksum_val is_ACK payload_length payload)).
Proof.
  intros Hs Ha Hc Hl.
  destruct (length_4 s Hs) as (s0 & s1 & s2 & s3 & ->).
  destruct (length_4 a Ha) as (a0 & a1 & a2 & a3 & ->).
  destruct (length_2 c Hc) as (c0 & c1 & ->).
  destruct (length_4 l Hl) as (l0 & l1 & l2 & l3 & ->).
  reflexivity.
Qed.

(** Unpacking what [pack('!iiH?i%is')] produced gives back its fields,
    when the payload has the declared length and is valid UTF-8. *)
Lemma pack_pkt_unpack (seq ack cs : Z) (flag : bool) (pl : bytes)
    (cps : list Z) (bs : bytes) :
  pack_pkt seq ack cs flag (Z.of_nat (length pl)) (length pl) pl = Some bs ->
  utf8_decode pl = Some cps ->
  unpack_packet bs =
    Some (mkPacket seq ack cs flag (Z.of_nat (length pl)) cps).
Proof.
  unfold pack_pkt. intros Hp Hd.
  destruct (pack_i seq) as [s|] eqn:Es; [|discriminate].
  destruct (pack_i ack) as [a|] eqn:Ea; [|discriminate].
  destruct (pack_H cs) as [c|] eqn:Ec; [|discriminate].
  destruct (pack_i (Z.of_nat (length pl))) as [l|] eqn:El; [|discriminate].
  cbv [mbind option_bind] in Hp.
  assert (bs = s ++ a ++ c ++ pack_bool flag ++ l ++ pack_s (length pl) pl)
    as -> by congruence.
  apply pack_i_spec in Es as (Hs4 & Us & _).
  apply pack_i_spec in Ea as (Ha4 & Ua & _).
  apply pack_H_spec in Ec as (Hc2 & Uc).
  apply pack_i_spec in El as (Hl4 & Ul & _).
  rewrite pack_s_exact by done. unfold pack_bool.
  rewrite unpack_packet_split by done.
  rewrite Us, Ua, Uc, Ul. cbv [mbind option_bind].
  rewrite unpack_s_exact, Hd. by destruct flag.
Qed.

(** ** [compute_checksum] *)

Lemma checksum_loop_even (n : nat) (l : bytes) (carry : Z) (ch : option Z) :
  length l = (2 * n)%nat ->
  checksum_loop carry l ch =
    match l with
    | [] => ch
    | _ => Some (Z.land (Z.lnot (fold1 (carry + words_sum l))) 0xffff)
    end.
Proof.
  revert l carry ch. induction n as [|n IH]; intros l carry ch Hl.
  - destruct l; [done | simpl in Hl; lia].
  - destruct l as [|b0 [|b1 rest]]; simpl in Hl; try lia.
    simpl checksum_loop. rewrite (IH rest) by lia.
    destruct rest as [|b2 rest]; simpl words_sum.
    + unfold fold1. by rewrite Z.add_0_r.
    + unfold fold1. by rewrite Z.add_assoc.
Qed.

Lemma words_sum_pad (n : nat) (l : bytes) :
  length l = (2 * n + 1)%nat -> words_sum (l ++ [0]) = words_sum l.
Proof.
  revert l. induction n as [|n IH]; intros l Hl.
  - destruct l as [|b0 [|]]; simpl in Hl; try lia. cbn [words_sum app]. rewrite Z.lor_0_r. lia.
  - destruct l as [|b0 [|b1 rest]]; simpl in Hl; try lia.
    simpl. rewrite IH by lia. reflexivity.
Qed.

Lemma words_sum_nonneg (l : bytes) : Forall is_byte l -> 0 <= words_sum l.
Proof.
  intros Hl. remember (length l) as n eqn:En.
  revert l Hl En. induction n as [n IH] using lt_wf_ind; intros l Hl En.
  destruct l as [|b0 [|b1 rest]]; simpl; [lia| |].
  - inversion Hl as [|? ? Hb]; subst. unfold is_byte in Hb.
    apply Z.shiftl_nonneg. lia.
  - inversion Hl as [|? ? Hb0 Hl1]; subst. inversion Hl1 as [|? ? Hb1 Hl2]; subst.
    unfold is_byte in *.
    assert (0 <= Z.lor (Z.shiftl b0 8) b1).
    { apply Z.lor_nonneg. split; [apply Z.shiftl_nonneg|]; lia. }
    assert (0 <= words_sum rest) by (apply (IH (length rest)); simpl; auto; lia).
    lia.
Qed.

Lemma compute_checksum_shape (packet : bytes) :
  compute_checksum packet =
    match packet with
    | [] => None
    | _ => Some (Z.land (Z.lnot (fold1 (words_sum packet))) 0xffff)
    end.
Proof.
  unfold compute_checksum.
  destruct (Nat.Even_or_Odd (length packet)) as [[n Hn]|[n Hn]].
  - assert (Nat.even (length packet) = true) as -> by (apply Nat.even_spec; by exists n).
    rewrite (checksum_loop_even n) by done. by destruct packet.
  - assert (Nat.even (length packet) = false) as ->.
    { apply not_true_iff_false. rewrite Nat.even_spec. intros He.
      apply (Nat.Even_Odd_False (length packet)); [done | by exists n]. }
    rewrite (checksum_loop_even (S n)) by (rewrite length_app; simpl; lia).
    rewrite (words_sum_pad n) by done.
    destruct packet as [|b rest]; [simpl in Hn; lia|]. done.
Qed.

Lemma compute_checksum_range (packet : bytes) (c : Z) :
  compute_checksum packet = Some c -> 0 <= c < 2 ^ 16.
Proof.
  rewrite compute_checksum_shape. destruct packet as [|b rest]; [discriminate|].
  intros Hc. assert (c = Z.land (Z.lnot (fold1 (words_sum (b :: rest)))) 65535)
    as -> by congruence. change 65535 with (Z.ones 16).
  rewrite Z.land_ones by lia. apply Z.mod_pos_bound. lia.
Qed.

Lemma fold_carries_small (fuel : nat) (x : Z) :
  0 <= x <= 0xffff -> fold_carries fuel x = x.
Proof.
  intros Hx. destruct fuel as [|fuel]; [done|]. simpl.
  rewrite Z.shiftr_div_pow2, Z.div_small by lia. done.
Qed.

(** X2: when folding the word sum once leaves no carry, the code's
    checksum is the Internet checksum. *)
Theorem compute_checksum_internet (packet : bytes) :
  Forall is_byte packet -> packet <> [] ->
  fold1 (words_sum packet) <= 0xffff ->
  compute_checksum packet = Some (internet_checksum packet).
Proof.
  intros Hb Hne Hf. rewrite compute_checksum_shape.
  assert (match packet with [] => None
          | _ => Some (Z.land (Z.lnot (fold1 (words_sum packet))) 0xffff) end
          = Some (Z.land (Z.lnot (fold1 (words_sum packet))) 0xffff)) as ->
    by (by destruct packet).
  unfold internet_checksum. cbv zeta. f_equal. f_equal. f_equal.
  pose proof (words_sum_nonneg packet Hb) as Hs.
  set (s := words_sum packet) in *.
  assert (0 <= fold1 s).
  { unfold fold1. change 0xffff with (Z.ones 16). rewrite Z.land_ones by lia.
    pose proof (Z.mod_pos_bound s (2 ^ 16)).
    assert (0 <= Z.shiftr s 16) by (apply Z.shiftr_nonneg; lia). lia. }
  simpl fold_carries.
  destruct (Z.eqb_spec (Z.shiftr s 16) 0) as [E|E].
  - unfold fold1. rewrite E. change 0xffff with (Z.ones 16).
    rewrite Z.land_ones, Z.add_0_r by lia.
    rewrite Z.shiftr_div_pow2 in E by lia.
    rewrite Z.mod_small; [done|]. split; [lia|].
    clearbody s. apply Z.div_small_iff in E; [lia | lia].
  - unfold fold1 in *. by rewrite fold_carries_small by lia.
Qed.

Lemma compute_checksum_internet_witness :
  compute_checksum data_a = Some (internet_checksum data_a).
Proof.
  apply compute_checksum_internet.
  - repeat (constructor; [unfold is_byte; lia|]). constructor.
  - discriminate.
  - apply Z.leb_le. reflexivity.
Defined.

(** ** Packet round trips *)

Lemma pack_pkt_in_range (seq ack cs : Z) (flag : bool) (len : Z) (n : nat)
    (pl : bytes) :
  - 2 ^ 31 <= seq < 2 ^ 31 -> - 2 ^ 31 <= ack < 2 ^ 31 ->
  0 <= cs < 2 ^ 16 -> - 2 ^ 31 <= len < 2 ^ 31 ->
  exists bs, pack_pkt seq ack cs flag len n pl = Some bs /\ bs <> [].
Proof.
  intros Hs Ha Hc Hl. unfold pack_pkt.
  destruct (pack_i_in_range seq Hs) as [s Es]. rewrite Es.
  destruct (pack_i_in_range ack Ha) as [a Ea]. rewrite Ea.
  destruct (pack_H_in_range cs Hc) as [c Ec]. rewrite Ec.
  destruct (pack_i_in_range len Hl) as [l El]. rewrite El.
  cbv [mbind option_bind]. eexists; split; [reflexivity|].
  apply pack_i_spec in Es as (Hs4 & _). destruct s; [simpl in Hs4; lia|]. done.
Qed.

Lemma utf8_encode_ascii (p : list Z) : Forall is_ascii p -> utf8_encode p = Some p.
Proof.
  induction 1 as [|c p Hc Hp IH]; [done|]. simpl. rewrite IH.
  unfold utf8_encode_cp, is_ascii in *.
  destruct (Z.ltb_spec c 0); [lia|]. destruct (Z.ltb_spec c 0x80); [|lia]. done.
Qed.

Lemma utf8_decode_ascii (p : list Z) : Forall is_ascii p -> utf8_decode p = Some p.
Proof.
  induction 1 as [|c p Hc Hp IH]; [done|]. unfold is_ascii in Hc. simpl.
  destruct (Z.leb_spec c 0x7F); [|lia]. by rewrite IH.
Qed.

Lemma ack_packet_unpack (a : Z) :
  - 2 ^ 31 <= a < 2 ^ 31 ->
  exists bs cs, ack_packet a = Some bs /\
    unpack_packet bs = Some (mkPacket 0 a cs true 0 []).
Proof.
  intros Ha. unfold ack_packet.
  destruct (pack_pkt_in_range 0 a 0 true 0 0 [] ltac:(lia) Ha ltac:(lia) ltac:(lia))
    as (bs0 & E0 & Hne). rewrite E0. cbv [mbind option_bind].
  rewrite compute_checksum_shape.
  destruct bs0 as [|b rest]; [done|].
  set (cs := Z.land (Z.lnot (fold1 (words_sum (b :: rest)))) 0xffff).
  assert (Hcs : 0 <= cs < 2 ^ 16).
  { apply (compute_checksum_range (b :: rest)).
    rewrite compute_checksum_shape. reflexivity. }
  destruct (pack_pkt_in_range 0 a cs true 0 0 [] ltac:(lia) Ha Hcs ltac:(lia))
    as (bs & E & _).
  exists bs, cs. split; [exact E|].
  exact (pack_pkt_unpack 0 a cs true [] [] bs E eq_refl).
Qed.


Lemma create_data_pkt_unpack (self : GBNHost) (seq : Z) (p : list Z) :
  - 2 ^ 31 <= seq < 2 ^ 31 ->
  - 2 ^ 31 <= last_ACKed self < 2 ^ 31 ->
  Z.of_nat (length p) < 2 ^ 31 ->
  Forall is_ascii p ->
  exists bs cs, create_data_pkt self seq p = Some bs /\
    unpack_packet bs =
      Some (mkPacket seq (last_ACKed self) cs false (Z.of_nat (length p)) p).
Proof.
  intros Hs Ha Hl Hp. unfold create_data_pkt.
  rewrite (utf8_encode_ascii p Hp). cbv [mbind option_bind].
  destruct (pack_pkt_in_range seq (last_ACKed self) 0 false (Z.of_nat (length p))
              (length p) p Hs Ha ltac:(lia) ltac:(lia)) as (bs0 & E0 & Hne).
  rewrite E0. rewrite compute_checksum_shape.
  destruct bs0 as [|b rest]; [done|].
  set (cs := Z.land (Z.lnot (fold1 (words_sum (b :: rest)))) 0xffff).
  assert (Hcs : 0 <= cs < 2 ^ 16).
  { apply (compute_checksum_range (b :: rest)).
    rewrite compute_checksum_shape. reflexivity. }
  destruct (pack_pkt_in_range seq (last_ACKed self) cs false (Z.of_nat (length p))
              (length p) p Hs Ha Hcs ltac:(lia)) as (bs & E & _).
  exists bs, cs. split; [exact E|].
  exact (pack_pkt_unpack seq (last_ACKed self) cs false p p bs E
           (utf8_decode_ascii p Hp)).
Qed.


(** X1: [compute_checksum] raises on an empty packet; on any other packet
    it returns the complement of the word sum folded exactly once. *)
Theorem compute_checksum_single_fold (packet : bytes) :
  compute_checksum packet =
    match packet with
    | [] => None
    | _ => Some (Z.land (Z.lnot (fold1 (words_sum packet))) 0xffff)
    end.
Proof. apply compute_checksum_shape. Qed.

(** X3: for every acknowledgment number in the signed 32-bit range the
    receiver's ACK packet is built without error, and unpacking it gives
    back an ACK with that number, sequence number 0 and no payload. *)
Theorem ack_packet_roundtrip (a : Z) :
  - 2 ^ 31 <= a < 2 ^ 31 ->
  exists bs cs, ack_packet a = Some bs /\
    unpack_packet bs = Some (mkPacket 0 a cs true 0 []).
Proof. apply ack_packet_unpack. Qed.

Lemma ack_packet_roundtrip_witness :
  exists bs cs, ack_packet 7 = Some bs /\
    unpack_packet bs = Some (mkPacket 0 7 cs true 0 []).
Proof. apply ack_packet_roundtrip. lia. Defined.

(** X4: [create_data_pkt] succeeds on every ASCII payload shorter than
    2^31 when the sequence number and [last_ACKed] fit a signed 32-bit
    int, and unpacking the packet gives back the sequence number,
    [last_ACKed] as acknowledgment number, the data flag, the payload
    length and the payload. *)
Theorem create_data_pkt_roundtrip (self : GBNHost) (seq : Z) (p : list Z) :
  - 2 ^ 31 <= seq < 2 ^ 31 ->
  - 2 ^ 31 <= last_ACKed self < 2 ^ 31 ->
  Z.of_nat (length p) < 2 ^ 31 ->
  Forall is_ascii p ->
  exists bs cs, create_data_pkt self seq p = Some bs /\
    unpack_packet bs =
      Some (mkPacket seq (last_ACKed self) cs false (Z.of_nat (length p)) p).
Proof. apply create_data_pkt_unpack. Qed.

Lemma create_data_pkt_roundtrip_witness :
  exists bs cs, create_data_pkt (init 10 4) 1 pa = Some bs /\
    unpack_packet bs = Some (mkPacket 1 0 cs false 1 pa).
Proof.
  apply (create_data_pkt_roundtrip (init 10 4) 1 pa); simpl; try lia.
  repeat (constructor; [unfold is_ascii; lia|]). constructor.
Defined.

(** ** What each entry point changes *)

Lemma count_deliveries_app (e1 e2 : list event) :
  count_deliveries (e1 ++ e2) = (count_deliveries e1 + count_deliveries e2)%nat.
Proof. unfold count_deliveries. by rewrite List.filter_app, length_app. Qed.

Lemma app_layer_effect (self : GBNHost) (p : list Z) (s' : GBNHost) evs :
  receive_from_application_layer self p = Some (s', evs) ->
  timer_interval s' = timer_interval self /\ window_size s' = window_size self /\
  last_ACKed s' = last_ACKed self /\
  expected_seq_number s' = expected_seq_number self /\
  last_ACK_pkt s' = last_ACK_pkt self /\ count_deliveries evs = 0%nat /\
  ((current_seq_number self < last_ACKed self + window_size self /\
    current_seq_number s' = current_seq_number self + 1 /\
    app_layer_buffer s' = app_layer_buffer self /\
    exists pkt, unACKed_buffer s' =
                <[current_seq_number self := pkt]> (unACKed_buffer self)) \/
   (current_seq_number s' = current_seq_number self /\
    app_layer_buffer s' = app_layer_buffer self ++ [p] /\
    unACKed_buffer s' = unACKed_buffer self)).
Proof.
  unfold receive_from_application_layer.
  destruct (Z.ltb_spec (current_seq_number self) (last_ACKed self + window_size self)).
  - destruct (create_data_pkt self (current_seq_number self) p) as [pkt|];
      [|discriminate]. cbv [mbind option_bind]. intros Hs.
    injection Hs as <- <-. simpl.
    repeat split; try reflexivity.
    + by destruct (current_seq_number self - last_ACKed self =? 1).
    + left. repeat split; eauto.
  - intros Hs. injection Hs as <- <-. simpl. repeat split; auto.
Qed.

Lemma handle_packet_effect (self : GBNHost) (p : packet) (s' : GBNHost) evs :
  handle_packet self p = Some (s', evs) ->
  timer_interval s' = timer_interval self /\ window_size s' = window_size self /\
  current_seq_number s' = current_seq_number self /\
  app_layer_buffer s' = app_layer_buffer self /\
  unACKed_buffer s' = unACKed_buffer self /\
  ((expected_seq_number s' = expected_seq_number self + 1 /\
    last_ACKed s' = last_ACKed self /\ count_deliveries evs = 1%nat) \/
   (expected_seq_number s' = expected_seq_number self /\
    count_deliveries evs = 0%nat /\
    (last_ACKed s' = last_ACKed self \/ last_ACKed s' = last_ACKed self + 1))).
Proof.
  unfold handle_packet. destruct (is_ACK p); simpl.
  - destruct (Z.ltb_spec (last_ACKed self) (ack_num p)); intros Hs.
    + injection Hs as <- <-. simpl. repeat split; auto. right. split; [done|].
      split; [|right; lia].
      by destruct (last_ACKed self + 1 + 1 =? expected_seq_number self).
    + injection Hs as <- <-. repeat split; auto.
  - destruct (seq_num p =? expected_seq_number self).
    + destruct (pack_pkt 0 (ack_num p) 0 true 0 0 []); [|discriminate].
      cbv [mbind option_bind].
      destruct (compute_checksum _); [|discriminate].
      destruct (pack_pkt 0 (ack_num p) z true 0 0 []); [|discriminate].
      intros Hs. injection Hs as <- <-. simpl. repeat split; auto.
    + intros Hs. injection Hs as <- <-. repeat split; auto.
Qed.

Lemma network_layer_effect (self : GBNHost) (bs : bytes) (s' : GBNHost) evs :
  receive_from_network_layer self bs = Some (s', evs) ->
  timer_interval s' = timer_interval self /\ window_size s' = window_size self /\
  current_seq_number s' = current_seq_number self /\
  app_layer_buffer s' = app_layer_buffer self /\
  unACKed_buffer s' = unACKed_buffer self /\
  ((expected_seq_number s' = expected_seq_number self + 1 /\
    last_ACKed s' = last_ACKed self /\ count_deliveries evs = 1%nat) \/
   (expected_seq_number s' = expected_seq_number self /\
    count_deliveries evs = 0%nat /\
    (last_ACKed s' = last_ACKed self \/ last_ACKed s' = last_ACKed self + 1))).
Proof.
  unfold receive_from_network_layer.
  destruct (unpack_packet bs) as [p|]; [|discriminate]. apply handle_packet_effect.
Qed.

Lemma step_effect (s : GBNHost) (e : list event) (s' : GBNHost) :
  step s e s' ->
  timer_interval s' = timer_interval s /\ window_size s' = window_size s /\
  last_ACKed s <= last_ACKed s' <= last_ACKed s + 1 /\
  current_seq_number s <= current_seq_number s' <= current_seq_number s + 1 /\
  expected_seq_number s <= expected_seq_number s' <= expected_seq_number s + 1 /\
  count_deliveries e = Z.to_nat (expected_seq_number s' - expected_seq_number s) /\
  (exists l, app_layer_buffer s' = app_layer_buffer s ++ l).
Proof.
  destruct 1 as [self p s' evs H | self bs s' evs H | self].
  - apply app_layer_effect in H as (Ht & Hw & Hl & He & _ & Hd & Hc).
    rewrite Hd, He, Z.sub_diag, Ht, Hw, Hl.
    destruct Hc as [(_ & Hc & Ha & _) | (Hc & Ha & _)]; rewrite Hc, Ha.
    + do 6 (split; [lia || done|]). exists []. by rewrite app_nil_r.
    + do 6 (split; [lia || done|]). by exists [p].
  - apply network_layer_effect in H as (Ht & Hw & Hc & Ha & _ & Hx).
    rewrite Ht, Hw, Hc, Ha.
    assert (Hn : exists l, app_layer_buffer self = app_layer_buffer self ++ l)
      by (exists []; by rewrite app_nil_r).
    destruct Hx as [(He & Hl & Hd) | (He & Hd & Hl)]; rewrite Hd, He.
    + rewrite Hl. replace (expected_seq_number self + 1 - expected_seq_number self)
        with 1 by lia.
      do 6 (split; [lia || done|]). exact Hn.
    + rewrite Z.sub_diag.
      do 6 (split; [destruct Hl; lia || done|]). exact Hn.
  - simpl. rewrite Z.sub_diag. do 6 (split; [lia || done|]).
    exists []. by rewrite app_nil_r.
Qed.

(** X5: one call of an entry point never lowers [last_ACKed],
    [current_seq_number] or [expected_seq_number], and raises each of them
    by at most one. *)
Theorem step_counters_monotone (s : GBNHost) (e : list event) (s' : GBNHost) :
  step s e s' ->
  last_ACKed s <= last_ACKed s' <= last_ACKed s + 1 /\
  current_seq_number s <= current_seq_number s' <= current_seq_number s + 1 /\
  expected_seq_number s <= expected_seq_number s' <= expected_seq_number s + 1.
Proof. intros H. apply step_effect in H. tauto. Qed.

Lemma step_counters_monotone_witness :
  exists s' e, receive_from_application_layer (init 10 4) pa = Some (s', e) /\
  (last_ACKed (init 10 4) <= last_ACKed s' <= last_ACKed (init 10 4) + 1 /\
   current_seq_number (init 10 4) <= current_seq_number s'
     <= current_seq_number (init 10 4) + 1 /\
   expected_seq_number (init 10 4) <= expected_seq_number s'
     <= expected_seq_number (init 10 4) + 1).
Proof.
  eexists _, _. split; [reflexivity|].
  eapply step_counters_monotone. eapply (step_app _ pa). reflexivity.
Defined.

(** X6: over any run, [expected_seq_number] never decreases and the number
    of payloads handed to the application ([to_layer5]) is exactly how far
    [expected_seq_number] advanced: each accepted sequence number is
    delivered once. *)
Theorem steps_deliveries (s : GBNHost) (evs : list event) (s' : GBNHost) :
  steps s evs s' ->
  expected_seq_number s <= expected_seq_number s' /\
  count_deliveries evs = Z.to_nat (expected_seq_number s' - expected_seq_number s).
Proof.
  induction 1 as [s | s e1 s1 e2 s2 Hst _ [IH1 IH2]].
  - rewrite Z.sub_diag. split; [lia | reflexivity].
  - apply step_effect in Hst as (_ & _ & _ & _ & He & Hd & _).
    rewrite count_deliveries_app, Hd, IH2. split; [lia|]. lia.
Qed.

Lemma steps_deliveries_witness :
  exists s' evs,
    receive_from_network_layer (init 10 4) data_a = Some (s', evs) /\
    expected_seq_number (init 10 4) <= expected_seq_number s' /\
    count_deliveries (evs ++ []) =
      Z.to_nat (expected_seq_number s' - expected_seq_number (init 10 4)).
Proof.
  eexists _, _. split; [reflexivity|].
  apply steps_deliveries. eapply steps_cons; [|apply steps_refl].
  eapply (step_net _ data_a). reflexivity.
Defined.

(** X7: nothing ever leaves [app_layer_buffer]: over any run, the buffer
    only has payloads appended, so a payload buffered while the window was
    full is never sent. *)
Theorem steps_app_buffer_grows (s : GBNHost) (evs : list event) (s' : GBNHost) :
  steps s evs s' ->
  exists l, app_layer_buffer s' = app_layer_buffer s ++ l.
Proof.
  induction 1 as [s | s e1 s1 e2 s2 Hst _ [l2 IH]].
  - exists []. by rewrite app_nil_r.
  - apply step_effect in Hst as (_ & _ & _ & _ & _ & _ & [l1 Hl1]).
    exists (l1 ++ l2). by rewrite IH, Hl1, app_assoc.
Qed.

Lemma steps_app_buffer_grows_witness :
  exists s' evs,
    receive_from_application_layer (init 10 1) pa = Some (s', evs) /\
    exists l, app_layer_buffer s' = app_layer_buffer (init 10 1) ++ l.
Proof.
  eexists _, _. split; [reflexivity|].
  eapply (steps_app_buffer_grows _ (_ ++ [])).
  eapply steps_cons; [|apply steps_refl].
  eapply (step_app _ pa). reflexivity.
Defined.

Lemma steps_preserve (P : GBNHost -> Prop) :
  (forall s e s', P s -> step s e s' -> P s') ->
  forall s evs s', P s -> steps s evs s' -> P s'.
Proof.
  intros Hstep s evs s' Hs Hrun. induction Hrun as [|s e1 s1 e2 s2 Hst _ IH]; eauto.
Qed.

Lemma step_unACKed_dom (s : GBNHost) (e : list event) (s' : GBNHost) :
  (1 <= current_seq_number s /\ forall k,
     is_Some (unACKed_buffer s !! k) <-> 1 <= k < current_seq_number s) ->
  step s e s' ->
  (1 <= current_seq_number s' /\ forall k,
     is_Some (unACKed_buffer s' !! k) <-> 1 <= k < current_seq_number s').
Proof.
  intros [Hpos Hinv] Hst. destruct Hst as [self p s' evs H | self bs s' evs H | self].
  - apply app_layer_effect in H as (_ & _ & _ & _ & _ & _ & Hc).
    destruct Hc as [(_ & Hc & _ & pkt & Hu) | (Hc & _ & Hu)];
      rewrite Hc; split; try lia; intros k; rewrite Hu; [|apply Hinv].
    rewrite lookup_insert. case_decide as Hk.
    + subst k. split; [lia | eauto].
    + rewrite Hinv. lia.
  - apply network_layer_effect in H as (_ & _ & Hc & _ & Hu & _).
    rewrite Hc, Hu. auto.
  - auto.
Qed.

(** X8: in every host a simulation reaches, [unACKed_buffer] holds a packet
    for exactly the sequence numbers 1 .. [current_seq_number] - 1: every
    packet ever sent stays in it, acknowledged or not. *)
Theorem reachable_unACKed_dom (ti ws : Z) (s : GBNHost) :
  reachable ti ws s ->
  forall k, is_Some (unACKed_buffer s !! k) <-> 1 <= k < current_seq_number s.
Proof.
  intros [evs Hrun].
  assert (H : 1 <= current_seq_number s /\ forall k,
            is_Some (unACKed_buffer s !! k) <-> 1 <= k < current_seq_number s).
  { apply (steps_preserve _ step_unACKed_dom (init ti ws) evs s); [|done].
    split; [simpl; lia|]. intros k. simpl. rewrite lookup_empty.
    split; [intros []; discriminate | lia]. }
  apply H.
Qed.

Lemma reachable_unACKed_dom_witness :
  exists s' evs,
    receive_from_application_layer (init 10 4) pa = Some (s', evs) /\
    (is_Some (unACKed_buffer s' !! 1) <-> 1 <= 1 < current_seq_number s').
Proof.
  eexists _, _. split; [reflexivity|].
  apply (reachable_unACKed_dom 10 4). eexists.
  eapply steps_cons; [|apply steps_refl].
  eapply (step_app _ pa). reflexivity.
Defined.

Lemma step_window (ws : Z) (s : GBNHost) (e : list event) (s' : GBNHost) :
  (window_size s = ws /\ current_seq_number s <= last_ACKed s + ws) ->
  step s e s' ->
  (window_size s' = ws /\ current_seq_number s' <= last_ACKed s' + ws).
Proof.
  intros [Hw Hinv] Hst. destruct Hst as [self p s' evs H | self bs s' evs H | self].
  - apply app_layer_effect in H as (_ & Hw' & Hl & _ & _ & _ & Hc).
    rewrite Hw', Hl. destruct Hc as [(Hlt & Hc & _) | (Hc & _)]; lia.
  - pose proof (step_effect _ _ _ (step_net _ _ _ _ H)) as (_ & Hw' & Hl & _).
    apply network_layer_effect in H as (_ & _ & Hc & _).
    rewrite Hw', Hc. lia.
  - simpl. lia.
Qed.

(** X9: in every host reached from [GBNHost(sim, e, ti, ws)] with
    [ws >= 1], [current_seq_number <= last_ACKed + ws]: at most [ws - 1]
    packets beyond [last_ACKed] have been sent. *)
Theorem reachable_window_bound (ti ws : Z) (s : GBNHost) :
  1 <= ws -> reachable ti ws s ->
  current_seq_number s <= last_ACKed s + ws.
Proof.
  intros Hws [evs Hrun].
  assert (H : window_size s = ws /\ current_seq_number s <= last_ACKed s + ws).
  { apply (steps_preserve _ (step_window ws) (init ti ws) evs s); [|done].
    simpl. lia. }
  apply H.
Qed.

Lemma reachable_window_bound_witness :
  exists s' evs,
    submit_all (init 10 2) [pa; pb; pc] = Some (s', evs) /\
    current_seq_number s' <= last_ACKed s' + 2.
Proof.
  eexists _, _. split; [reflexivity|].
  apply (reachable_window_bound 10 2); [lia|].
  eexists. eapply steps_cons; [eapply (step_app _ pa); reflexivity|].
  eapply steps_cons; [eapply (step_app _ pb); reflexivity|].
  eapply steps_cons; [eapply (step_app _ pc); reflexivity|].
  apply steps_refl.
Defined.

Lemma unpack_packet_ack_field (bs : bytes) (p : packet) :
  unpack_packet bs = Some p -> unpack_i (slice 4 8 bs) = Some (ack_num p).
Proof.
  unfold unpack_packet.
  destruct (unpack_i (slice 0 4 bs)); [|discriminate]; cbv [mbind option_bind].
  destruct (unpack_i (slice 4 8 bs)); [|discriminate].
  destruct (unpack_H (slice 8 10 bs)); [|discriminate].
  destruct (unpack_bool (slice 10 11 bs)); [|discriminate].
  destruct (unpack_i (slice 11 15 bs)); [|discriminate].
  destruct (unpack_s _ _); [|discriminate].
  destruct (utf8_decode _); [|discriminate].
  intros Hp. injection Hp as <-. reflexivity.
Qed.

Lemma ack_pkt_built (a : Z) :
  - 2 ^ 31 <= a < 2 ^ 31 ->
  exists ack_pkt,
    (ack_pkt0 ← pack_pkt 0 a 0 true 0 0 [];
     checksum ← compute_checksum ack_pkt0;
     pack_pkt 0 a checksum true 0 0 []) = Some ack_pkt.
Proof.
  intros Ha.
  destruct (pack_pkt_in_range 0 a 0 true 0 0 [] ltac:(lia) Ha ltac:(lia) ltac:(lia))
    as (bs0 & E0 & Hne). rewrite E0. cbv [mbind option_bind].
  destruct (compute_checksum bs0) as [cs|] eqn:Ec.
  - apply compute_checksum_range in Ec.
    destruct (pack_pkt_in_range 0 a cs true 0 0 [] ltac:(lia) Ha Ec ltac:(lia))
      as (bs & E & _). eauto.
  - rewrite compute_checksum_shape in Ec. by destruct bs0.
Qed.

(** X10: once a byte string unpacks, [receive_from_network_layer] returns
    normally; it hands exactly one packet to the network (the new or the
    last ACK) for a data packet, and none for an ACK. *)
Theorem network_layer_reply (self : GBNHost) (bs : bytes) (p : packet) :
  Forall is_byte bs -> unpack_packet bs = Some p ->
  exists s' evs, receive_from_network_layer self bs = Some (s', evs) /\
    count_sends evs = (if is_ACK p then 0 else 1)%nat.
Proof.
  intros Hb Hp. unfold receive_from_network_layer. rewrite Hp.
  cbv [mbind option_bind]. unfold handle_packet.
  destruct (is_ACK p); cbn [negb].
  - destruct (last_ACKed self <? ack_num p); eauto.
    eexists _, _. split; [reflexivity|].
    by destruct (last_ACKed self + 1 + 1 =? expected_seq_number self).
  - destruct (seq_num p =? expected_seq_number self); [|eauto].
    assert (Ha : - 2 ^ 31 <= ack_num p < 2 ^ 31).
    { apply (unpack_i_range (slice 4 8 bs)); [|by apply unpack_packet_ack_field].
      unfold slice. by apply Forall_take, Forall_drop. }
    destruct (ack_pkt_built (ack_num p) Ha) as [ack_pkt E].
    cbv [mbind option_bind] in E |- *.
    destruct (pack_pkt 0 (ack_num p) 0 true 0 0 []) as [b0|]; [|discriminate].
    destruct (compute_checksum b0) as [c|]; [|discriminate].
    rewrite E. eauto.
Qed.

Lemma network_layer_reply_witness :
  exists s' evs, receive_from_network_layer (init 10 4) data_a = Some (s', evs) /\
    count_sends evs = 1%nat.
Proof.
  apply (network_layer_reply (init 10 4) data_a (mkPacket 1 0 65181 false 1 pa)).
  - repeat (constructor; [unfold is_byte; lia|]). constructor.
  - reflexivity.
Defined.

(** X11: [receive_from_network_layer] never looks at the checksum: two
    byte strings that differ only in bytes 8-9 (the checksum field) give the
    same result, the same state change and the same calls, or both raise. *)
Theorem network_layer_ignores_checksum (self : GBNHost) (s a c c' rest : bytes) :
  length s = 4%nat -> length a = 4%nat -> length c = 2%nat -> length c' = 2%nat ->
  receive_from_network_layer self (s ++ a ++ c ++ rest) =
  receive_from_network_layer self (s ++ a ++ c' ++ rest).
Proof.
  intros Hs Ha Hc Hc'.
  destruct (length_4 s Hs) as (s0 & s1 & s2 & s3 & ->).
  destruct (length_4 a Ha) as (a0 & a1 & a2 & a3 & ->).
  destruct (length_2 c Hc) as (c0 & c1 & ->).
  destruct (length_2 c' Hc') as (d0 & d1 & ->).
  unfold receive_from_network_layer, unpack_packet.
  cbn [slice firstn skipn app Nat.sub].
  assert (H2 : forall x y, unpack_H [x; y] = Some (be_value [x; y])) by reflexivity.
  rewrite !H2. cbv [mbind option_bind].
  destruct (unpack_i [s0; s1; s2; s3]); [|reflexivity].
  destruct (unpack_i [a0; a1; a2; a3]); [|reflexivity].
  destruct (unpack_bool (take 1 (drop 0 rest))); [|reflexivity].
  destruct (unpack_i (take 4 (drop 1 rest))) as [len|]; [|reflexivity].
  destruct (unpack_s len (drop 5 rest)) as [raw|]; [|reflexivity].
  destruct (utf8_decode raw); reflexivity.
Qed.

Lemma network_layer_ignores_checksum_witness :
  receive_from_network_layer (init 10 4) data_a =
  receive_from_network_layer (init 10 4)
    ([0;0;0;1] ++ [0;0;0;0] ++ [0;0] ++ [0; 0;0;0;1; 97]).
Proof.
  apply (network_layer_ignores_checksum (init 10 4) [0;0;0;1] [0;0;0;0]
           [254;157] [0;0] [0; 0;0;0;1; 97]); reflexivity.
Defined.


